(** * NmapXmlToJson: the flattening of an Nmap XML report into records

    A shallow embedding of [parse_nmap_xml] (NmapXmlToJson.py) and of the part
    of [xml.etree.ElementTree] that it reads, followed by the properties of
    the transformation. *)

From Stdlib Require Import ZArith Ascii.
From stdpp Require Import gmap strings list fin_maps.

Open Scope string_scope.

Set Warnings "-register-all".
Set Default Proof Using "Type".

(** ** The element tree (xml.etree.ElementTree) *)

Module ET.

(** An element: its tag, its attribute dictionary and its child elements in
    document order.  Text and tail are never read by the program. *)
Inductive Element : Type :=
  mkElement (tag : string) (attrib : gmap string string) (children : list Element).

Definition tag (e : Element) : string :=
  match e with mkElement t _ _ => t end.

Definition attrib (e : Element) : gmap string string :=
  match e with mkElement _ a _ => a end.

Definition children (e : Element) : list Element :=
  match e with mkElement _ _ cs => cs end.

(** [elem.get(key)]: [None] when the attribute is absent. *)
Definition get (e : Element) (key : string) : option string :=
  attrib e !! key.

(** [elem.get(key, dflt)]. *)
Definition get_or (e : Element) (key dflt : string) : string :=
  default dflt (get e key).

(** [elem.findall(t)] for a plain tag [t]: the direct children with that
    tag, in document order. *)
Definition findall (t : string) (e : Element) : list Element :=
  filter (λ c, tag c = t) (children e).

(** [elem.find(t)]: the first such child, or [None]. *)
Definition find (t : string) (e : Element) : option Element :=
  head (findall t e).

(** [elem.iter(t)]: the element itself when its tag is [t], then the
    matches of each child, depth first. *)
Fixpoint iter (t : string) (e : Element) : list Element :=
  match e with
  | mkElement t' _ cs =>
      (if decide (t' = t) then [e] else []) ++ flat_map (iter t) cs
  end.

(** [elem.findall(".//t")]: every proper descendant with tag [t], in
    document order. *)
Definition findall_descendants (t : string) (e : Element) : list Element :=
  flat_map (iter t) (children e).

End ET.

Import ET.

(** ** Python values *)

(** Truth value of an optional string: [None] and [""] are false. *)
Definition truthy (o : option string) : bool :=
  match o with
  | Some s => bool_decide (s ≠ "")
  | None => false
  end.

(** [sep.join(l)]. *)
Definition join (sep : string) (l : list string) : string :=
  String.concat sep l.

(** A value stored in a record: a string or a string-to-string dictionary. *)
Inductive value : Type :=
  | VStr (s : string)
  | VDict (d : gmap string string).

(** What the program can touch outside its arguments: the files it may read
    and the lines written to the error stream. *)
Record World : Type := mkWorld {
  files : gmap string string;
  stderr : list string
}.

(** How a call ends: it returns a value, or [sys.exit] ends the process. *)
Inductive outcome (A : Type) : Type :=
  | Returned (a : A)
  | Exited (status : Z).

Arguments Returned {A} a.
Arguments Exited {A} status.

(** ** parse_nmap_xml *)

Section Transform.

(** [str.upper] of the Python runtime. *)
Variable str_upper : string → string.

(** Lines 42-46: the scan of the address children stops at the first one
    whose addrtype is ipv4 and takes its addr attribute, present or not. *)
Fixpoint scan_addresses (addresses : list Element) : option string :=
  match addresses with
  | [] => None
  | address :: rest =>
      if decide (get address "addrtype" = Some "ipv4")
      then get address "addr"
      else scan_addresses rest
  end.

Definition ip_address_of (host : Element) : option string :=
  scan_addresses (findall "address" host).

(** Lines 52-57. *)
Definition hostname_of (host : Element) : string :=
  match find "hostnames" host with
  | Some hostnames =>
      match find "hostname" hostnames with
      | Some hostname_elem => get_or hostname_elem "name" ""
      | None => ""
      end
  | None => ""
  end.

(** Lines 69-70. *)
Definition port_state_of (port : Element) : string :=
  match find "state" port with
  | Some state => get_or state "state" ""
  | None => ""
  end.

Definition detail_attrs : list string :=
  ["product"; "version"; "extrainfo"; "method"; "conf"].

(** Lines 85-87: one turn of the loop over the five attribute names. *)
Definition add_detail (service : Element)
    (service_details : gmap string string) (attr : string) : gmap string string :=
  match get service attr with
  | Some v => if truthy (Some v) then <[attr := v]> service_details else service_details
  | None => service_details
  end.

(** Lines 93-98. *)
Definition combined_of (product version : option string) : string :=
  let combined := [] in
  let combined :=
    match product with
    | Some p => if truthy product then (combined ++ [p])%list else combined
    | None => combined
    end in
  let combined :=
    match version with
    | Some v => if truthy version then (combined ++ [v])%list else combined
    | None => combined
    end in
  join " " combined.

(** Lines 84-98: the details dictionary of a service element. *)
Definition service_details_of (service : Element) : gmap string string :=
  let service_details := foldl (add_detail service) ∅ detail_attrs in
  let product := get service "product" in
  let version := get service "version" in
  if truthy product || truthy version
  then <["combined_info" := combined_of product version]> service_details
  else service_details.

(** Lines 117-120: one turn of the loop over the script children. *)
Definition add_script (script_output : gmap string string) (script : Element)
    : gmap string string :=
  let script_id := get_or script "id" "" in
  if truthy (Some script_id)
  then <[script_id := get_or script "output" ""]> script_output
  else script_output.

(** Lines 65-123: the record of one port, or [None] when the port is
    skipped by the [continue] of line 74. *)
Definition port_record (port_status_filter hostname ip_address : string)
    (port : Element) : option (gmap string value) :=
  let port_id := get_or port "portid" "" in
  let protocol := str_upper (get_or port "protocol" "") in
  let port_state := port_state_of port in
  if bool_decide (port_status_filter ≠ "all") && bool_decide (port_state ≠ port_status_filter)
  then None
  else
    let service := find "service" port in
    let service_name :=
      match service with Some s => get_or s "name" "" | None => "" end in
    let service_details :=
      match service with Some s => service_details_of s | None => ∅ end in
    let record : gmap string value :=
      <["service" := VStr service_name]>
      (<["port_status" := VStr port_state]>
      (<["port" := VStr (protocol ++ "/" ++ port_id)]>
      (<["ip" := VStr ip_address]>
      (<["fqdn" := VStr hostname]> ∅)))) in
    let record :=
      if bool_decide (service_details ≠ ∅)
      then <["detailed_service_info" := VDict service_details]> record
      else record in
    let scripts := findall "script" port in
    let record :=
      match scripts with
      | [] => record
      | _ :: _ =>
          let script_output := foldl add_script ∅ scripts in
          if bool_decide (script_output ≠ ∅)
          then <["script_output" := VDict script_output]> record
          else record
      end in
    Some record.

(** Lines 64-125: one turn of the loop over the port children. *)
Definition port_step (port_status_filter hostname ip_address : string)
    (results : list (gmap string value)) (port : Element)
    : list (gmap string value) :=
  match port_record port_status_filter hostname ip_address port with
  | Some record => (results ++ [record])%list
  | None => results
  end.

(** Lines 40-125: one turn of the loop over the hosts. *)
Definition host_step (port_status_filter : string)
    (results : list (gmap string value)) (host : Element)
    : list (gmap string value) :=
  match ip_address_of host with
  | Some ip_address =>
      if truthy (Some ip_address) then
        let hostname := hostname_of host in
        match find "ports" host with
        | None => results
        | Some ports =>
            foldl (port_step port_status_filter hostname ip_address)
                  results (findall "port" ports)
        end
      else results
  | None => results
  end.

(** Lines 37-127: the body of [parse_nmap_xml] once the tree is there. *)
Definition transform (root : Element) (port_status_filter : string)
    : list (gmap string value) :=
  foldl (host_step port_status_filter) [] (findall_descendants "host" root).

(** The XML parser behind [ET.parse]: the root of the tree, or the text of
    the exception it raises on a document that is not well formed. *)
Variable XMLParser : string → Element + string.

(** The text of the exception raised when a path cannot be opened. *)
Variable open_error : string → string.

(** [ET.parse(source).getroot()]. *)
Definition ET_parse (w : World) (source : string) : Element + string :=
  match files w !! source with
  | Some text => XMLParser text
  | None => inr (open_error source)
  end.

(** Lines 19-127. *)
Definition parse_nmap_xml (xml_file port_status_filter : string) (w : World)
    : outcome (list (gmap string value)) * World :=
  match ET_parse w xml_file with
  | inr e =>
      (Exited 1,
       {| files := files w;
          stderr := (stderr w ++ [("Error parsing XML file: " ++ e)%string])%list |})
  | inl root => (Returned (transform root port_status_filter), w)
  end.

(** *** Notions used to state the properties *)

(** What one host adds to the result list. *)
Definition host_records (port_status_filter : string) (host : Element)
    : list (gmap string value) :=
  host_step port_status_filter [] host.

(** [emitted root f host port record]: the run over [root] with filter [f]
    reaches the port child [port] of the host [host] and appends [record]
    for it. *)
Definition emitted (root : Element) (port_status_filter : string)
    (host port : Element) (record : gmap string value) : Prop :=
  host ∈ findall_descendants "host" root ∧
  ∃ ip_address ports,
    ip_address_of host = Some ip_address ∧ ip_address ≠ "" ∧
    find "ports" host = Some ports ∧ port ∈ findall "port" ports ∧
    port_record port_status_filter (hostname_of host) ip_address port = Some record.

End Transform.

(** An attribute of the service child of a port, [None] when the child or
    the attribute is absent. *)
Definition port_service_attr (port : Element) (key : string) : option string :=
  find "service" port ≫= λ service, get service key.

(** The address children of a host that are tagged ipv4. *)
Definition ipv4_addresses (host : Element) : list Element :=
  filter (λ a, get a "addrtype" = Some "ipv4") (findall "address" host).

(** C5 as the specification words it: the key is there exactly when a
    script child has a non-empty id, and then every script child with a
    non-empty id finds its own output under its id, every key being such
    an id. *)
Definition script_output_as_claimed (port : Element)
    (record : gmap string value) : Prop :=
  (is_Some (record !! "script_output") ↔
     ∃ s, s ∈ findall "script" port ∧ truthy (get s "id") = true) ∧
  (∀ v, record !! "script_output" = Some v →
     ∃ d, v = VDict d ∧
       (∀ s, s ∈ findall "script" port → truthy (get s "id") = true →
          d !! default "" (get s "id") = Some (default "" (get s "output"))) ∧
       (∀ k, is_Some (d !! k) →
          k ≠ "" ∧ ∃ s, s ∈ findall "script" port ∧ get s "id" = Some k)).

(** ** Sample documents *)

Module Samples.

(** [str.upper] on ASCII text. *)
Definition upper_char (c : ascii) : ascii :=
  let n := Ascii.N_of_ascii c in
  if ((97 <=? n) && (n <=? 122))%N then Ascii.ascii_of_N (n - 32) else c.

Fixpoint ascii_upper (s : string) : string :=
  match s with
  | EmptyString => EmptyString
  | String c rest => String (upper_char c) (ascii_upper rest)
  end.

Definition elem (t : string) (attrs : list (string * string))
    (cs : list Element) : Element :=
  mkElement t (list_to_map attrs) cs.

Definition address (addrtype addr : string) : Element :=
  elem "address" [("addr", addr); ("addrtype", addrtype)] [].

Definition port (protocol portid state : string) (cs : list Element) : Element :=
  elem "port" [("protocol", protocol); ("portid", portid)]
       (elem "state" [("state", state)] [] :: cs).

Definition web1_http : Element :=
  port "tcp" "80" "open"
       [elem "service" [("name", "http"); ("product", "nginx"); ("version", "1.18")] []].

Definition web1_telnet : Element :=
  port "tcp" "23" "closed" [].

(** The host of the first scenario, with a second, closed port. *)
Definition web1 : Element :=
  elem "host" []
       [address "ipv4" "10.0.0.5";
        elem "hostnames" [] [elem "hostname" [("name", "web1")] []];
        elem "ports" [] [web1_http; web1_telnet]].

Definition run (hosts : list Element) : Element :=
  elem "nmaprun" [] hosts.

Definition web1_http_record : gmap string value :=
  list_to_map
    [("fqdn", VStr "web1"); ("ip", VStr "10.0.0.5"); ("port", VStr "TCP/80");
     ("port_status", VStr "open"); ("service", VStr "http");
     ("detailed_service_info",
      VDict (list_to_map [("product", "nginx"); ("version", "1.18");
                          ("combined_info", "nginx 1.18")]))].

Definition web1_telnet_record : gmap string value :=
  list_to_map
    [("fqdn", VStr "web1"); ("ip", VStr "10.0.0.5"); ("port", VStr "TCP/23");
     ("port_status", VStr "closed"); ("service", VStr "")].

(** A host that only has an ipv6 address. *)
Definition v6_host : Element :=
  elem "host" []
       [address "ipv6" "fe80::1"; elem "ports" [] [web1_http; web1_telnet]].

(** A host whose first ipv4 address has an empty addr and whose second one
    is usable. *)
Definition blank_first_host : Element :=
  elem "host" []
       [address "ipv4" ""; address "ipv4" "10.0.0.9";
        elem "ports" [] [web1_http]].

(** A port with two script children that carry the same id. *)
Definition banner_port : Element :=
  port "tcp" "22" "open"
       [elem "script" [("id", "banner"); ("output", "one")] [];
        elem "script" [("id", "banner"); ("output", "two")] []].

Definition banner_host : Element :=
  elem "host" []
       [address "ipv4" "10.0.0.7"; elem "ports" [] [banner_port]].

Definition banner_record : gmap string value :=
  list_to_map
    [("fqdn", VStr ""); ("ip", VStr "10.0.0.7"); ("port", VStr "TCP/22");
     ("port_status", VStr "open"); ("service", VStr "");
     ("script_output", VDict (list_to_map [("banner", "two")]))].

(** A stand-in for the XML parser that knows one document. *)
Definition toy_parser (text : string) : Element + string :=
  if decide (text = "<nmaprun><host/></nmaprun>")
  then inl (run [elem "host" [] []])
  else inr "syntax error: line 1, column 0".

Definition toy_open_error (path : string) : string :=
  "[Errno 2] No such file or directory: " ++ path.

Definition disk : World :=
  {| files := list_to_map [("scan.xml", "<nmaprun><host/></nmaprun>");
                           ("bad.xml", "<nmaprun>")];
     stderr := [] |}.

End Samples.

Import Samples.

(** Closed goals over the sample documents are settled by evaluation. *)
Ltac evaluate :=
  vm_compute;
  first [ reflexivity | discriminate | solve [repeat constructor] ].

Ltac show_emitted ip ports :=
  split; [evaluate | exists ip, ports; repeat split; evaluate].

(** ** The command line program *)

(** What [parse_args] returns: the input path, the output path when one
    was given, and the status filter. *)
Record Args : Type := mkArgs {
  input : string;
  output : option string;
  status : string
}.

(** The world together with what was printed on the standard output, one
    entry for each call of [print], whatever the number of lines in it. *)
Record Console : Type := mkConsole {
  world : World;
  stdout : list string
}.

(** How lines 152-153 end: the text is in the file; [open] raised, and the
    file system is as before; or a later step raised, and the file holds
    what was written until then. *)
Inductive write_result : Type :=
  | Written
  | OpenFailed (e : string)
  | WriteFailed (written : string) (e : string).

Section Main.

Variable str_upper : string → string.
Variable XMLParser : string → Element + string.
Variable open_error : string → string.

(** [json.dumps(results, indent=2)]. *)
Variable json_dumps : list (gmap string value) → string.

(** What writing a text to a path does in a world. *)
Variable try_write : World → string → string → write_result.

(** Whether two paths name the same file: one path spelled in two ways, or
    a link. *)
Variable same_file : string → string → bool.

(** The files once [text] is stored under [path]: [path] and every path
    that names the same file read as [text]. *)
Definition store (path text : string) (fs : gmap string string)
    : gmap string string :=
  <[path := text]>
    (map_imap (λ p old, Some (if same_file path p then text else old)) fs).

(** Lines 143-159: [main] from the point where [parse_args] has returned.
    The three [print] calls are taken to succeed. *)
Definition main (args : Args) (c : Console) : outcome unit * Console :=
  match parse_nmap_xml str_upper XMLParser open_error
          (input args) (status args) (world c) with
  | (Exited code, w) => (Exited code, {| world := w; stdout := stdout c |})
  | (Returned results, w) =>
      let json_output := json_dumps results in
      match output args with
      | Some path =>
          if truthy (Some path) then
            match try_write w path json_output with
            | Written =>
                (Returned (),
                 {| world := {| files := store path json_output (files w);
                                stderr := stderr w |};
                    stdout := (stdout c
                               ++ [("Results written to " ++ path)%string])%list |})
            | OpenFailed e =>
                (Exited 1,
                 {| world :=
                      {| files := files w;
                         stderr := (stderr w
                                    ++ [("Error writing to output file: " ++ e)%string])%list |};
                    stdout := stdout c |})
            | WriteFailed written e =>
                (Exited 1,
                 {| world :=
                      {| files := store path written (files w);
                         stderr := (stderr w
                                    ++ [("Error writing to output file: " ++ e)%string])%list |};
                    stdout := stdout c |})
            end
          else
            (Returned (),
             {| world := w; stdout := (stdout c ++ [json_output])%list |})
      | None =>
          (Returned (),
           {| world := w; stdout := (stdout c ++ [json_output])%list |})
      end
  end.

End Main.

(** *** Further notions *)

(** The children of a host and of a port that the program looks at. *)
Definition host_children_read : list string :=
  ["address"; "hostnames"; "ports"].

Definition port_children_read : list string :=
  ["state"; "service"; "script"].

(** The keys a record can have. *)
Definition required_keys : list string :=
  ["fqdn"; "ip"; "port"; "port_status"; "service"].

(** Script children with the same non-empty id have the same output. *)
Definition scripts_agree (port : Element) : Prop :=
  ∀ s1 s2, s1 ∈ findall "script" port → s2 ∈ findall "script" port →
    truthy (get s1 "id") = true → get s1 "id" = get s2 "id" →
    default "" (get s1 "output") = default "" (get s2 "output").

Global Instance value_eq_dec : EqDecision value.
Proof. solve_decision. Defined.

(** The records among [results] whose port_status is [f]. *)
Definition with_status (f : string) (results : list (gmap string value))
    : list (gmap string value) :=
  filter (λ r, r !! "port_status" = Some (VStr f)) results.

(** *** Further sample documents *)

(** [web1] under another tag, with attributes and with children that the
    program does not look at. *)
Definition web1_verbose : Element :=
  elem "host" [("starttime", "1700000000")]
       [elem "status" [("state", "down")] [];
        address "ipv4" "10.0.0.5";
        address "mac" "00:11:22:33:44:55";
        elem "hostnames" [] [elem "hostname" [("name", "web1")] []];
        elem "os" [] [];
        elem "ports" [] [web1_http; web1_telnet]].

(** A port with two script children of different ids. *)
Definition two_scripts_port : Element :=
  port "tcp" "22" "open"
       [elem "script" [("id", "banner"); ("output", "one")] [];
        elem "script" [("id", "ssh-hostkey"); ("output", "two")] []].

Definition two_scripts_record : gmap string value :=
  list_to_map
    [("fqdn", VStr ""); ("ip", VStr "10.0.0.7"); ("port", VStr "TCP/22");
     ("port_status", VStr "open"); ("service", VStr "");
     ("script_output",
      VDict (list_to_map [("banner", "one"); ("ssh-hostkey", "two")]))].

Definition two_scripts_host : Element :=
  elem "host" []
       [address "ipv4" "10.0.0.7"; elem "ports" [] [two_scripts_port]].

(** A host without hostnames whose port has no attribute, no state and no
    service, and a script without output. *)
Definition bare_port : Element :=
  elem "port" [] [elem "script" [("id", "banner")] []].

Definition bare_host : Element :=
  elem "host" [] [address "ipv4" "10.0.0.8"; elem "ports" [] [bare_port]].

Definition bare_record : gmap string value :=
  list_to_map
    [("fqdn", VStr ""); ("ip", VStr "10.0.0.8"); ("port", VStr "/");
     ("port_status", VStr ""); ("service", VStr "");
     ("script_output", VDict (list_to_map [("banner", "")]))].

(** A stand-in for [json.dumps] that only counts the records. *)
Definition toy_dumps (results : list (gmap string value)) : string :=
  match results with
  | [] => "[]"
  | _ :: _ => "[...]"
  end.

(** A file system in which every path but "/proc/x" can be written. *)
Definition toy_write (w : World) (path text : string) : write_result :=
  if decide (path = "/proc/x") then OpenFailed "[Errno 13] Permission denied"
  else Written.

(** Paths that differ by a leading "./" name the same file. *)
Definition toy_same_file (p q : string) : bool :=
  bool_decide (p = q) || bool_decide (p = "./" ++ q) || bool_decide (q = "./" ++ p).

Definition terminal : Console := {| world := disk; stdout := [] |}.

(** ** The loops as list functions *)

Section Loops.

Variable str_upper : string → string.

Lemma foldl_port_step f hostname ip ports results :
  foldl (port_step str_upper f hostname ip) results ports
  = (results ++ omap (port_record str_upper f hostname ip) ports)%list.
Proof.
  revert results. induction ports as [|port ports IH]; intros results; simpl.
  - by rewrite app_nil_r.
  - rewrite IH. unfold port_step.
    destruct (port_record str_upper f hostname ip port); simpl; [|done].
    by rewrite <- app_assoc.
Qed.

Lemma host_records_cases f host :
  host_records str_upper f host =
  match ip_address_of host with
  | Some ip =>
      if truthy (Some ip) then
        match find "ports" host with
        | Some ports =>
            omap (port_record str_upper f (hostname_of host) ip) (findall "port" ports)
        | None => []
        end
      else []
  | None => []
  end.
Proof.
  unfold host_records, host_step.
  destruct (ip_address_of host) as [ip|]; [|done].
  destruct (truthy (Some ip)); [|done].
  destruct (find "ports" host) as [ports|]; [|done].
  by rewrite foldl_port_step.
Qed.

Lemma host_step_app f results host :
  host_step str_upper f results host
  = (results ++ host_records str_upper f host)%list.
Proof.
  rewrite host_records_cases. unfold host_step.
  destruct (ip_address_of host) as [ip|]; [|by rewrite app_nil_r].
  destruct (truthy (Some ip)); [|by rewrite app_nil_r].
  destruct (find "ports" host) as [ports|]; [|by rewrite app_nil_r].
  apply foldl_port_step.
Qed.

Lemma foldl_host_step f hosts results :
  foldl (host_step str_upper f) results hosts
  = (results ++ flat_map (host_records str_upper f) hosts)%list.
Proof.
  revert results. induction hosts as [|host hosts IH]; intros results; simpl.
  - by rewrite app_nil_r.
  - by rewrite IH, host_step_app, <- app_assoc.
Qed.

Lemma transform_flat_map root f :
  transform str_upper root f
  = flat_map (host_records str_upper f) (findall_descendants "host" root).
Proof. unfold transform. by rewrite foldl_host_step. Qed.

Lemma truthy_Some s : truthy (Some s) = true ↔ s ≠ "".
Proof. simpl. by rewrite bool_decide_eq_true. Qed.

Lemma elem_of_host_records f host r :
  r ∈ host_records str_upper f host ↔
  ∃ ip ports port,
    ip_address_of host = Some ip ∧ ip ≠ "" ∧
    find "ports" host = Some ports ∧ port ∈ findall "port" ports ∧
    port_record str_upper f (hostname_of host) ip port = Some r.
Proof.
  rewrite host_records_cases. split.
  - destruct (ip_address_of host) as [ip|]; [|by intros ?%elem_of_nil].
    destruct (truthy (Some ip)) eqn:Hip; [|by intros ?%elem_of_nil].
    destruct (find "ports" host) as [ports|]; [|by intros ?%elem_of_nil].
    intros (port & Hport & Hr)%list_elem_of_omap.
    exists ip, ports, port. by apply truthy_Some in Hip.
  - intros (ip & ports & port & -> & Hip & -> & Hport & Hr).
    apply truthy_Some in Hip. rewrite Hip.
    apply list_elem_of_omap. eauto.
Qed.

Lemma elem_of_transform root f r :
  r ∈ transform str_upper root f ↔ ∃ host port, emitted str_upper root f host port r.
Proof.
  rewrite transform_flat_map, list_elem_of_In, in_flat_map. unfold emitted. split.
  - intros (host & Hhost%list_elem_of_In & Hr%list_elem_of_In).
    apply elem_of_host_records in Hr as (ip & ports & port & ?).
    exists host, port. split; [done|]. by exists ip, ports.
  - intros (host & port & Hhost & ip & ports & H).
    exists host. split; [by apply list_elem_of_In|].
    apply list_elem_of_In, elem_of_host_records. by exists ip, ports, port.
Qed.

End Loops.

(** ** The dictionaries of one port *)

Lemma add_detail_lookup service d attr k :
  add_detail service d attr !! k =
  if decide (k = attr)
  then (if truthy (get service attr) then get service attr else d !! k)
  else d !! k.
Proof.
  unfold add_detail. destruct (get service attr) as [v|] eqn:Hv.
  - destruct (truthy (Some v)).
    + case_decide as Hk; [subst; apply lookup_insert_eq|].
      by apply lookup_insert_ne.
    + by case_decide.
  - simpl. by case_decide.
Qed.

Lemma foldl_add_detail_lookup service attrs d k :
  foldl (add_detail service) d attrs !! k =
  if decide (k ∈ attrs)
  then (if truthy (get service k) then get service k else d !! k)
  else d !! k.
Proof.
  revert d. induction attrs as [|attr attrs IH]; intros d; cbn [foldl].
  - by destruct (decide (k ∈ [])) as [?%elem_of_nil|].
  - rewrite IH, add_detail_lookup.
    destruct (decide (k = attr)) as [->|Hne].
    + rewrite (decide_True (P := attr ∈ attr :: attrs)) by apply list_elem_of_here.
      case_decide; by destruct (truthy (get service attr)).
    + destruct (decide (k ∈ attrs)) as [Hin|Hin].
      * rewrite (decide_True (P := k ∈ attr :: attrs)); [done|].
        by apply list_elem_of_further.
      * rewrite (decide_False (P := k ∈ attr :: attrs)); [done|].
        by intros [?|?]%elem_of_cons.
Qed.

Lemma elem_of_detail_attrs k :
  k ∈ detail_attrs ↔
  k = "product" ∨ k = "version" ∨ k = "extrainfo" ∨ k = "method" ∨ k = "conf".
Proof. unfold detail_attrs. rewrite !elem_of_cons, elem_of_nil. tauto. Qed.

Lemma combined_info_not_detail : "combined_info" ∉ detail_attrs.
Proof. rewrite elem_of_detail_attrs. by intros [?|[?|[?|[?|?]]]]. Qed.

Lemma service_details_lookup service k :
  service_details_of service !! k =
  if decide (k = "combined_info")
  then (if truthy (get service "product") || truthy (get service "version")
        then Some (combined_of (get service "product") (get service "version"))
        else None)
  else if decide (k ∈ detail_attrs)
  then (if truthy (get service k) then get service k else None)
  else None.
Proof.
  unfold service_details_of.
  pose proof combined_info_not_detail as Hci.
  destruct (decide (k = "combined_info")) as [->|Hne].
  - destruct (truthy (get service "product") || truthy (get service "version")).
    + apply lookup_insert_eq.
    + rewrite foldl_add_detail_lookup. by rewrite decide_False.
  - assert (Hk : foldl (add_detail service) ∅ detail_attrs !! k
                 = if decide (k ∈ detail_attrs)
                   then (if truthy (get service k) then get service k else None)
                   else None).
    { rewrite foldl_add_detail_lookup. by rewrite lookup_empty. }
    destruct (truthy (get service "product") || truthy (get service "version"));
      [by rewrite lookup_insert_ne|done].
Qed.

Lemma truthy_is_Some o : truthy o = true → ∃ s, o = Some s ∧ s ≠ "".
Proof.
  destruct o as [s|]; [|done]. intros H%bool_decide_eq_true. by exists s.
Qed.

Lemma service_details_nonempty service :
  service_details_of service ≠ ∅ ↔
  ∃ attr, attr ∈ detail_attrs ∧ truthy (get service attr) = true.
Proof.
  split.
  - intros Hne. destruct (map_choose _ Hne) as (k & v & Hkv).
    rewrite service_details_lookup in Hkv.
    destruct (decide (k = "combined_info")) as [->|Hk].
    + destruct (truthy (get service "product")) eqn:Hp.
      * exists "product". split; [|done]. apply elem_of_detail_attrs. tauto.
      * destruct (truthy (get service "version")) eqn:Hv; [|done].
        exists "version". split; [|done]. apply elem_of_detail_attrs. tauto.
    + destruct (decide (k ∈ detail_attrs)) as [Hin|]; [|done].
      destruct (truthy (get service k)) eqn:Ht; [|done]. by exists k.
  - intros (attr & Hin & Ht) Hempty.
    assert (Hl : service_details_of service !! attr = None)
      by (rewrite Hempty; apply lookup_empty).
    rewrite service_details_lookup in Hl.
    destruct (truthy_is_Some _ Ht) as (s & Hs & _).
    destruct (decide (attr = "combined_info")) as [->|_].
    + by apply combined_info_not_detail in Hin.
    + rewrite decide_True, Ht, Hs in Hl by done. done.
Qed.

Lemma add_script_lookup d script k :
  add_script d script !! k =
  if decide (get script "id" = Some k ∧ k ≠ "")
  then Some (get_or script "output" "")
  else d !! k.
Proof.
  unfold add_script, get_or, truthy.
  destruct (get script "id") as [i|] eqn:Hi; cbn [default].
  - case_bool_decide as Hne.
    + destruct (decide (i = k)) as [->|Hik].
      * rewrite decide_True by done. apply lookup_insert_eq.
      * rewrite decide_False by (intros [[= ?] _]; done).
        by apply lookup_insert_ne.
    + change (i = "") in Hne. subst i.
      rewrite decide_False; [done|]. intros [[= <-] ?]. done.
  - case_bool_decide as Hne; [done|].
    rewrite decide_False; [done|]. by intros [? _].
Qed.

Lemma foldl_add_script_lookup scripts k :
  foldl add_script ∅ scripts !! k =
  if decide (k = "") then None
  else (λ s, get_or s "output" "")
         <$> last (filter (λ s, get s "id" = Some k) scripts).
Proof.
  induction scripts as [|script scripts IH] using rev_ind.
  - simpl. rewrite lookup_empty. by case_decide.
  - rewrite foldl_app. cbn [foldl]. rewrite add_script_lookup, IH, filter_app.
    rewrite filter_cons, filter_nil.
    destruct (decide (k = "")) as [->|Hk].
    + rewrite decide_False; [done|]. by intros [_ ?].
    + destruct (decide (get script "id" = Some k)) as [Hid|Hid].
      * rewrite decide_True by done. by rewrite last_snoc.
      * rewrite decide_False by (by intros [? _]). by rewrite app_nil_r.
Qed.

Lemma script_output_nonempty scripts :
  foldl add_script ∅ scripts ≠ ∅ ↔
  ∃ s, s ∈ scripts ∧ truthy (get s "id") = true.
Proof.
  split.
  - intros Hne. destruct (map_choose _ Hne) as (k & v & Hkv).
    rewrite foldl_add_script_lookup in Hkv.
    destruct (decide (k = "")) as [|Hk]; [done|].
    destruct (last _) as [s|] eqn:Hlast; [|done].
    apply last_Some_elem_of, list_elem_of_filter in Hlast as [Hid Hin].
    exists s. split; [done|]. rewrite Hid. by apply truthy_Some.
  - intros (s & Hin & Ht) Hempty.
    destruct (truthy_is_Some _ Ht) as (k & Hid & Hk).
    assert (Hl : foldl add_script ∅ scripts !! k = None)
      by (rewrite Hempty; apply lookup_empty).
    rewrite foldl_add_script_lookup, decide_False in Hl by done.
    apply fmap_None, last_None in Hl.
    assert (Hs : s ∈ filter (λ s, get s "id" = Some k) scripts)
      by by apply list_elem_of_filter.
    rewrite Hl in Hs. by apply elem_of_nil in Hs.
Qed.

(** ** The record of one port *)

Section Ports.

Variable str_upper : string → string.

Lemma port_record_filter f hostname ip port r :
  port_record str_upper f hostname ip port = Some r →
  f = "all" ∨ port_state_of port = f.
Proof.
  unfold port_record. cbv zeta.
  destruct (decide (f = "all")) as [->|Hf]; [by left|].
  destruct (decide (port_state_of port = f)) as [Hs|Hs]; [by right|].
  rewrite !bool_decide_eq_true_2 by done. by cbn [andb].
Qed.

Lemma port_record_None f hostname ip port :
  f ≠ "all" → port_state_of port ≠ f →
  port_record str_upper f hostname ip port = None.
Proof.
  intros Hf Hs. unfold port_record. cbv zeta.
  rewrite !bool_decide_eq_true_2 by done. by cbn [andb].
Qed.

Lemma port_record_all hostname ip port :
  is_Some (port_record str_upper "all" hostname ip port).
Proof.
  unfold port_record. cbv zeta.
  rewrite bool_decide_eq_false_2 by auto. by cbn [andb].
Qed.

Lemma port_record_lookup f hostname ip port r :
  port_record str_upper f hostname ip port = Some r →
  r !! "fqdn" = Some (VStr hostname) ∧
  r !! "ip" = Some (VStr ip) ∧
  r !! "port" =
    Some (VStr (str_upper (get_or port "protocol" "") ++ "/" ++ get_or port "portid" "")) ∧
  r !! "port_status" = Some (VStr (port_state_of port)) ∧
  r !! "service" =
    Some (VStr (match find "service" port with
                | Some service => get_or service "name" ""
                | None => ""
                end)) ∧
  r !! "detailed_service_info" =
    match find "service" port with
    | Some service =>
        if bool_decide (service_details_of service ≠ ∅)
        then Some (VDict (service_details_of service))
        else None
    | None => None
    end ∧
  r !! "script_output" =
    if bool_decide (foldl add_script ∅ (findall "script" port) ≠ ∅)
    then Some (VDict (foldl add_script ∅ (findall "script" port)))
    else None.
Proof.
  unfold port_record. cbv zeta.
  destruct (_ && _); [done|]. intros [= <-].
  destruct (find "service" port) as [service|];
    destruct (findall "script" port) as [|script scripts];
    repeat case_bool_decide; simplify_map_eq; done.
Qed.

End Ports.

(** ** Hosts and their addresses *)

Lemma scan_addresses_head addresses :
  scan_addresses addresses =
  head (filter (λ a, get a "addrtype" = Some "ipv4") addresses)
    ≫= λ a, get a "addr".
Proof.
  induction addresses as [|a addresses IH]; [done|].
  cbn [scan_addresses]. rewrite filter_cons.
  by destruct (decide (get a "addrtype" = Some "ipv4")).
Qed.

Lemma ip_address_of_head host :
  ip_address_of host = head (ipv4_addresses host) ≫= λ a, get a "addr".
Proof. apply scan_addresses_head. Qed.

Lemma host_step_skip str_upper f results host :
  truthy (ip_address_of host) = false →
  host_step str_upper f results host = results.
Proof.
  unfold host_step. destruct (ip_address_of host) as [ip|]; [|done].
  by intros ->.
Qed.

Lemma port_state_of_default port :
  port_state_of port = default "" (find "state" port ≫= λ state, get state "state").
Proof. unfold port_state_of. by destruct (find "state" port). Qed.

Lemma hostname_of_default host :
  hostname_of host =
  default "" ((find "hostnames" host ≫= find "hostname") ≫= λ e, get e "name").
Proof.
  unfold hostname_of. destruct (find "hostnames" host) as [hs|]; [|done].
  simpl. by destruct (find "hostname" hs).
Qed.


(** ** The properties of the transformation *)

Section Claims.

Variable str_upper : string → string.

(** C1.  With a status filter other than "all", every record of the output
    has port_status equal to the filter, and a port whose state (the state
    attribute of its state child, the empty string when the child or the
    attribute is missing) differs from the filter adds no record. *)
Theorem status_filter_selects root f :
  f ≠ "all" →
  (∀ r, r ∈ transform str_upper root f → r !! "port_status" = Some (VStr f)) ∧
  (∀ hostname ip results port,
     default "" (find "state" port ≫= λ state, get state "state") ≠ f →
     port_step str_upper f hostname ip results port = results).
Proof.
  intros Hf. split.
  - intros r (host & port & _ & ip & ports & _ & _ & _ & _ & Hr)%elem_of_transform.
    destruct (port_record_filter _ _ _ _ _ _ Hr) as [?|Hs]; [done|].
    destruct (port_record_lookup _ _ _ _ _ _ Hr) as (_ & _ & _ & Hst & _).
    by rewrite Hst, Hs.
  - intros hostname ip results port Hs. unfold port_step.
    rewrite port_record_None; [done|done|]. by rewrite port_state_of_default.
Qed.

(** C2.  A host with no address child that is tagged ipv4 and carries a
    non-empty addr leaves the result list as it was, whatever its ports; and
    every record of the output has a non-empty ip. *)
Theorem hosts_without_ipv4_dropped f :
  (∀ results host,
     (∀ a, a ∈ findall "address" host → get a "addrtype" = Some "ipv4" →
           truthy (get a "addr") = false) →
     host_step str_upper f results host = results) ∧
  (∀ root r, r ∈ transform str_upper root f →
     ∃ ip, r !! "ip" = Some (VStr ip) ∧ ip ≠ "").
Proof.
  split.
  - intros results host Haddr. apply host_step_skip.
    rewrite ip_address_of_head.
    destruct (head (ipv4_addresses host)) as [a|] eqn:Hhead; [|done].
    apply head_Some_elem_of, list_elem_of_filter in Hhead as [Htype Hin].
    simpl. by apply Haddr.
  - intros root r (host & port & _ & ip & ports & _ & Hip & _ & _ & Hr)%elem_of_transform.
    destruct (port_record_lookup _ _ _ _ _ _ Hr) as (_ & Hr_ip & _).
    by exists ip.
Qed.

(** C7.  The output lists the records host by host in the order in which
    [findall] yields the hosts, and within a host port by port in the order
    of the port children; the records of a document are those of its first
    children followed by those of its last children, and their number is the
    sum over the hosts: nothing is reordered, dropped as a duplicate or
    merged. *)
Theorem output_in_document_order root f :
  transform str_upper root f
    = flat_map (host_records str_upper f) (findall_descendants "host" root) ∧
  (∀ host,
     host_records str_upper f host =
     match ip_address_of host, find "ports" host with
     | Some ip, Some ports =>
         if truthy (Some ip)
         then omap (port_record str_upper f (hostname_of host) ip)
                   (findall "port" ports)
         else []
     | _, _ => []
     end) ∧
  (∀ t attrs cs1 cs2,
     transform str_upper (mkElement t attrs (cs1 ++ cs2)) f
     = (transform str_upper (mkElement t attrs cs1) f
        ++ transform str_upper (mkElement t attrs cs2) f)%list) ∧
  length (transform str_upper root f)
    = list_sum (map (λ host, length (host_records str_upper f host))
                    (findall_descendants "host" root)).
Proof.
  split; [apply transform_flat_map|]. split; [|split].
  - intros host. rewrite host_records_cases.
    destruct (ip_address_of host) as [ip|]; [|done].
    destruct (find "ports" host); [done|]. by destruct (truthy (Some ip)).
  - intros t attrs cs1 cs2. rewrite !transform_flat_map.
    unfold findall_descendants. cbn [children].
    by rewrite !flat_map_app.
  - rewrite transform_flat_map. apply length_flat_map.
Qed.

(** C10.  When the first address child tagged ipv4 has no addr attribute or
    an empty one, the host adds nothing to the result list, whatever
    addresses follow it. *)
Theorem first_ipv4_address_decides f results host a :
  head (ipv4_addresses host) = Some a →
  truthy (get a "addr") = false →
  host_step str_upper f results host = results.
Proof.
  intros Hhead Haddr. apply host_step_skip.
  by rewrite ip_address_of_head, Hhead.
Qed.

(** C3.  The key detailed_service_info is in an emitted record exactly
    when one of product, version, extrainfo, method, conf is present and
    non-empty on the service child of the port; its value then holds each
    of the five that is non-empty with its value, combined_info exactly when
    product or version is non-empty, and nothing else. *)
Theorem detailed_service_info_content root f host port r :
  emitted str_upper root f host port r →
  (is_Some (r !! "detailed_service_info") ↔
     ∃ attr, attr ∈ detail_attrs ∧ truthy (port_service_attr port attr) = true) ∧
  (∀ v, r !! "detailed_service_info" = Some v →
     ∃ d, v = VDict d ∧
       (∀ k, k ∈ detail_attrs →
          d !! k = if truthy (port_service_attr port k)
                   then port_service_attr port k else None) ∧
       (is_Some (d !! "combined_info") ↔
          truthy (port_service_attr port "product")
          || truthy (port_service_attr port "version") = true) ∧
       (∀ k, k ∉ detail_attrs → k ≠ "combined_info" → d !! k = None)).
Proof.
  intros (_ & ip & ports & _ & _ & _ & _ & Hr).
  destruct (port_record_lookup _ _ _ _ _ _ Hr) as (_ & _ & _ & _ & _ & Hd & _).
  rewrite Hd. unfold port_service_attr.
  destruct (find "service" port) as [service|]; cbn [mbind option_bind].
  - case_bool_decide as Hne.
    + split; [split; [by intros _; apply service_details_nonempty|by eauto]|].
      intros v [= <-]. eexists. split; [done|]. split; [|split].
      * intros k Hk. rewrite service_details_lookup.
        rewrite decide_False, decide_True; [done..|].
        intros ->. by apply combined_info_not_detail in Hk.
      * rewrite service_details_lookup, decide_True by done.
        destruct (_ || _); [done|]. split; [by intros [? ?]|done].
      * intros k Hk Hci. rewrite service_details_lookup.
        by rewrite !decide_False.
    + split; [|done]. split; [by intros [? ?]|].
      intros Hex. by apply service_details_nonempty in Hex.
  - split; [|done]. split; [by intros [? ?]|]. by intros (attr & _ & ?).
Qed.

(** C4.  When product or version is non-empty on the service child, the
    record has detailed_service_info and its combined_info is product alone,
    version alone, or product, one space and version; when neither is,
    no detailed_service_info has the key combined_info. *)
Theorem combined_info_value root f host port r :
  emitted str_upper root f host port r →
  (truthy (port_service_attr port "product")
   || truthy (port_service_attr port "version") = true →
   ∃ d, r !! "detailed_service_info" = Some (VDict d) ∧
        d !! "combined_info" =
        Some (if truthy (port_service_attr port "product")
              then if truthy (port_service_attr port "version")
                   then default "" (port_service_attr port "product") ++ " "
                        ++ default "" (port_service_attr port "version")
                   else default "" (port_service_attr port "product")
              else default "" (port_service_attr port "version"))) ∧
  (truthy (port_service_attr port "product")
   || truthy (port_service_attr port "version") = false →
   ∀ d, r !! "detailed_service_info" = Some (VDict d) →
        d !! "combined_info" = None).
Proof.
  intros (_ & ip & ports & _ & _ & _ & _ & Hr).
  destruct (port_record_lookup _ _ _ _ _ _ Hr) as (_ & _ & _ & _ & _ & Hd & _).
  rewrite Hd. unfold port_service_attr.
  destruct (find "service" port) as [service|]; cbn [mbind option_bind];
    [|by split].
  split.
  - intros Hpv. rewrite bool_decide_eq_true_2.
    + eexists. split; [done|].
      rewrite service_details_lookup, decide_True, Hpv by done.
      f_equal. unfold combined_of.
      destruct (get service "product") as [p|], (get service "version") as [v|];
        cbn [truthy default] in *;
        repeat case_bool_decide; try done.
    + apply service_details_nonempty. apply orb_true_iff in Hpv as [Hp|Hv].
      * exists "product". split; [|done]. apply elem_of_detail_attrs. tauto.
      * exists "version". split; [|done]. apply elem_of_detail_attrs. tauto.
  - intros Hpv d. case_bool_decide; [|done]. intros [= <-].
    by rewrite service_details_lookup, decide_True, Hpv.
Qed.

(** C5, as amended.  The key script_output is in an emitted record exactly
    when a script child of the port has a non-empty id; its value then maps
    every such id to the output attribute (the empty string when absent) of
    the last script child that carries this id, and has no other key. *)
Theorem script_output_content root f host port r :
  emitted str_upper root f host port r →
  (is_Some (r !! "script_output") ↔
     ∃ s, s ∈ findall "script" port ∧ truthy (get s "id") = true) ∧
  (∀ v, r !! "script_output" = Some v →
     ∃ d, v = VDict d ∧
       ∀ k, d !! k =
            if decide (k = "") then None
            else (λ s, default "" (get s "output"))
                   <$> last (filter (λ s, get s "id" = Some k)
                                    (findall "script" port))).
Proof.
  intros (_ & ip & ports & _ & _ & _ & _ & Hr).
  destruct (port_record_lookup _ _ _ _ _ _ Hr) as (_ & _ & _ & _ & _ & _ & Hs).
  rewrite Hs. case_bool_decide as Hne.
  - split; [split; [by intros _; apply script_output_nonempty|by eauto]|].
    intros v [= <-]. eexists. split; [done|].
    intros k. apply foldl_add_script_lookup.
  - split; [|done]. split; [by intros [? ?]|].
    intros Hex. by apply script_output_nonempty in Hex.
Qed.

(** C6.  Every emitted record has the fields fqdn, ip, port, port_status
    and service: fqdn is the name of the first hostname child of the
    hostnames child, ip the address found for the host, port the upper-cased
    protocol, a slash and the portid, port_status the state of the state
    child and service the name of the service child, each attribute or
    child that is missing giving the empty string. *)
Theorem record_fields root f host port r :
  emitted str_upper root f host port r →
  r !! "fqdn" =
    Some (VStr (default "" ((find "hostnames" host ≫= find "hostname")
                              ≫= λ e, get e "name"))) ∧
  (∃ ip, ip_address_of host = Some ip ∧ r !! "ip" = Some (VStr ip)) ∧
  r !! "port" =
    Some (VStr (str_upper (default "" (get port "protocol")) ++ "/"
                ++ default "" (get port "portid"))) ∧
  r !! "port_status" =
    Some (VStr (default "" (find "state" port ≫= λ state, get state "state"))) ∧
  r !! "service" =
    Some (VStr (default "" (find "service" port ≫= λ service, get service "name"))).
Proof.
  intros (_ & ip & ports & Hip & _ & _ & _ & Hr).
  destruct (port_record_lookup _ _ _ _ _ _ Hr)
    as (Hfqdn & Hr_ip & Hport & Hstatus & Hservice & _).
  rewrite hostname_of_default in Hfqdn. rewrite port_state_of_default in Hstatus.
  split; [done|]. split; [by exists ip|]. split; [done|]. split; [done|].
  rewrite Hservice. by destruct (find "service" port).
Qed.

Variable XMLParser : string → Element + string.
Variable open_error : string → string.

(** C8.  When the document cannot be read or parsed the call ends the
    process with status 1 after one message on the error stream and returns
    no list; on every tree the call returns the list of [transform].  A
    host without a ports child leaves the result list as it was, and so
    does a host for which no address is found; a host with a usable address
    and a ports child adds, under the filter "all", one record per port
    child.  In every emitted record a missing hostnames or hostname child
    or name attribute gives the fqdn "", a missing state child or state
    attribute the port_status "", a missing service child or name attribute
    the service "", a missing protocol or portid the empty string in port;
    a missing service child gives no detailed_service_info and a missing
    attribute of it no entry there; script children without an id give no
    entry, and no script_output when none has one; a missing output gives
    the value "".  A port element with no attribute and no child still
    gives a record, with empty strings and without the two optional keys. *)
Theorem errors_and_defaults xml_file f w :
  (∀ e, ET_parse XMLParser open_error w xml_file = inr e →
     parse_nmap_xml str_upper XMLParser open_error xml_file f w
     = (Exited 1,
        {| files := files w;
           stderr := (stderr w ++ [("Error parsing XML file: " ++ e)%string])%list |})) ∧
  (∀ root, ET_parse XMLParser open_error w xml_file = inl root →
     parse_nmap_xml str_upper XMLParser open_error xml_file f w
     = (Returned (transform str_upper root f), w)) ∧
  (∀ results host, find "ports" host = None →
     host_step str_upper f results host = results) ∧
  (∀ results host ip ports,
     ip_address_of host = Some ip → ip ≠ "" → find "ports" host = Some ports →
     length (host_step str_upper "all" results host)
     = length results + length (findall "port" ports)) ∧
  (∀ hostname ip t,
     port_record str_upper "all" hostname ip (mkElement t ∅ [])
     = Some (<["service" := VStr ""]>
             (<["port_status" := VStr ""]>
             (<["port" := VStr (str_upper "" ++ "/")]>
             (<["ip" := VStr ip]>
             (<["fqdn" := VStr hostname]> ∅)))))) ∧
  (∀ results host, ip_address_of host = None →
     host_step str_upper f results host = results) ∧
  (∀ root host port r,
     emitted str_upper root f host port r →
     (((find "hostnames" host ≫= find "hostname") ≫= λ e, get e "name") = None →
        r !! "fqdn" = Some (VStr "")) ∧
     ((find "state" port ≫= λ state, get state "state") = None →
        r !! "port_status" = Some (VStr "")) ∧
     (port_service_attr port "name" = None → r !! "service" = Some (VStr "")) ∧
     (get port "protocol" = None →
        r !! "port" = Some (VStr (str_upper "" ++ "/" ++ default "" (get port "portid")))) ∧
     (get port "portid" = None →
        r !! "port" = Some (VStr (str_upper (default "" (get port "protocol")) ++ "/"))) ∧
     (find "service" port = None → r !! "detailed_service_info" = None) ∧
     (∀ d k, r !! "detailed_service_info" = Some (VDict d) →
        port_service_attr port k = None → k ≠ "combined_info" → d !! k = None) ∧
     ((∀ s, s ∈ findall "script" port → get s "id" = None) →
        r !! "script_output" = None) ∧
     (∀ d, r !! "script_output" = Some (VDict d) →
        d !! "" = None ∧
        ∀ k s, k ≠ "" →
          last (filter (λ s, get s "id" = Some k) (findall "script" port)) = Some s →
          get s "output" = None → d !! k = Some "")).
Proof.
  split; [|split; [|split; [|split; [|split; [|split]]]]].
  - intros e He. unfold parse_nmap_xml. by rewrite He.
  - intros root Hroot. unfold parse_nmap_xml. by rewrite Hroot.
  - intros results host Hports. unfold host_step. rewrite Hports.
    destruct (ip_address_of host) as [ip|]; [|done].
    by destruct (truthy (Some ip)).
  - intros results host ip ports Hip Hne Hports.
    rewrite host_step_app, length_app, host_records_cases, Hip, Hports.
    apply truthy_Some in Hne. rewrite Hne. f_equal.
    induction (findall "port" ports) as [|port l IH]; [done|].
    cbn [omap list_omap].
    destruct (port_record_all str_upper (hostname_of host) ip port) as [r ->].
    cbn [length]. f_equal. apply IH.
  - intros hostname ip t. reflexivity.
  - intros results host Hip. apply host_step_skip. by rewrite Hip.
  - intros root host port r (_ & ip & ports & _ & _ & _ & _ & Hr).
    destruct (port_record_lookup _ _ _ _ _ _ Hr)
      as (Hfqdn & _ & Hport & Hstatus & Hservice & Hd & Hs).
    rewrite hostname_of_default in Hfqdn.
    rewrite port_state_of_default in Hstatus.
    unfold port_service_attr, get_or in *.
    split_and!.
    + intros Hnone. by rewrite Hfqdn, Hnone.
    + intros Hnone. by rewrite Hstatus, Hnone.
    + intros Hnone. rewrite Hservice.
      destruct (find "service" port) as [service|]; [|done].
      cbn in Hnone. by rewrite Hnone.
    + intros Hnone. by rewrite Hport, Hnone.
    + intros Hnone. by rewrite Hport, Hnone.
    + intros Hnone. by rewrite Hd, Hnone.
    + intros d k Hrd Hnone Hk. rewrite Hd in Hrd.
      destruct (find "service" port) as [service|]; [|done].
      case_bool_decide; [|done]. injection Hrd as <-. cbn in Hnone.
      rewrite service_details_lookup, decide_False, Hnone by done.
      by destruct (decide (k ∈ detail_attrs)).
    + intros Hids. rewrite Hs. case_bool_decide as Hne; [|done].
      apply script_output_nonempty in Hne as (s & Hin & Ht).
      by rewrite (Hids s Hin) in Ht.
    + intros d Hrd. rewrite Hs in Hrd.
      case_bool_decide; [|done]. injection Hrd as <-. split.
      * rewrite foldl_add_script_lookup. by rewrite decide_True.
      * intros k s Hk Hlast Hout.
        rewrite foldl_add_script_lookup, decide_False, Hlast by done.
        cbn [fmap option_fmap option_map]. unfold get_or. by rewrite Hout.
Qed.

(** C9.  The call reads the world only through the file at its path: in two
    worlds that hold the same document there it ends the same way with the
    same list; it never changes a file; and on a tree it leaves the whole
    world as it was, its list being [transform] of the tree and the filter. *)
Theorem pure_and_deterministic xml_file f w1 w2 :
  files w1 !! xml_file = files w2 !! xml_file →
  fst (parse_nmap_xml str_upper XMLParser open_error xml_file f w1)
  = fst (parse_nmap_xml str_upper XMLParser open_error xml_file f w2) ∧
  files (snd (parse_nmap_xml str_upper XMLParser open_error xml_file f w1))
  = files w1 ∧
  (∀ root, ET_parse XMLParser open_error w1 xml_file = inl root →
     parse_nmap_xml str_upper XMLParser open_error xml_file f w1
     = (Returned (transform str_upper root f), w1)).
Proof.
  intros Hfile. unfold parse_nmap_xml, ET_parse. rewrite <- Hfile.
  destruct (files w1 !! xml_file) as [text|].
  - destruct (XMLParser text) as [root|e]; [|done].
    repeat split. by intros ? [= <-].
  - done.
Qed.

End Claims.

(** *** Instances on the sample documents *)

Lemma web1_closed_only :
  "closed" ≠ "all" ∧
  (∀ r, r ∈ transform ascii_upper (run [web1]) "closed" →
        r !! "port_status" = Some (VStr "closed")) ∧
  port_step ascii_upper "closed" "web1" "10.0.0.5" [] web1_http = [].
Proof.
  assert (Hf : "closed" ≠ "all") by discriminate.
  split; [exact Hf|].
  destruct (status_filter_selects ascii_upper (run [web1]) "closed" Hf)
    as [Hall Hskip].
  split; [exact Hall|]. apply Hskip. vm_compute. discriminate.
Defined.

Lemma blank_first_address_skips :
  address "ipv4" "10.0.0.9" ∈ ipv4_addresses blank_first_host ∧
  host_step ascii_upper "all" [] blank_first_host = [].
Proof.
  split.
  - vm_compute. apply list_elem_of_further, list_elem_of_here.
  - apply (first_ipv4_address_decides ascii_upper "all" [] blank_first_host
             (address "ipv4" "")); vm_compute; reflexivity.
Defined.

Lemma v6_host_adds_nothing :
  host_step ascii_upper "open" [] v6_host = [] ∧
  web1_http_record ∈ transform ascii_upper (run [v6_host; web1]) "open" ∧
  ∃ ip, web1_http_record !! "ip" = Some (VStr ip) ∧ ip ≠ "".
Proof.
  destruct (hosts_without_ipv4_dropped ascii_upper "open") as [Hskip Hip].
  assert (Hin : web1_http_record
                ∈ transform ascii_upper (run [v6_host; web1]) "open")
    by evaluate.
  split; [|split; [exact Hin|exact (Hip _ _ Hin)]].
  apply Hskip. intros a Ha Htype. vm_compute in Ha.
  apply list_elem_of_singleton in Ha. subst a. vm_compute in Htype.
  discriminate Htype.
Defined.

Lemma web1_http_details :
  emitted ascii_upper (run [web1]) "all" web1 web1_http web1_http_record ∧
  is_Some (web1_http_record !! "detailed_service_info") ∧
  ∃ d, web1_http_record !! "detailed_service_info" = Some (VDict d) ∧
       d !! "product" = Some "nginx" ∧ d !! "extrainfo" = None.
Proof.
  assert (He : emitted ascii_upper (run [web1]) "all" web1 web1_http
                       web1_http_record)
    by show_emitted "10.0.0.5" (elem "ports" [] [web1_http; web1_telnet]).
  split; [exact He|].
  destruct (detailed_service_info_content ascii_upper _ _ _ _ _ He)
    as [Hiff Hval].
  split.
  - apply Hiff. exists "product". split; evaluate.
  - destruct (Hval (VDict (list_to_map [("product", "nginx"); ("version", "1.18");
                                        ("combined_info", "nginx 1.18")]))
                   eq_refl) as (d & Hd & Hfive & _).
    exists d. split; [rewrite <- Hd; evaluate|].
    split; [rewrite (Hfive "product")|rewrite (Hfive "extrainfo")]; evaluate.
Defined.

Lemma web1_http_combined :
  emitted ascii_upper (run [web1]) "all" web1 web1_http web1_http_record ∧
  ∃ d, web1_http_record !! "detailed_service_info" = Some (VDict d) ∧
       d !! "combined_info" = Some "nginx 1.18".
Proof.
  assert (He : emitted ascii_upper (run [web1]) "all" web1 web1_http
                       web1_http_record)
    by show_emitted "10.0.0.5" (elem "ports" [] [web1_http; web1_telnet]).
  split; [exact He|].
  exact (proj1 (combined_info_value ascii_upper _ _ _ _ _ He) eq_refl).
Defined.

Lemma banner_last_output :
  emitted ascii_upper (run [banner_host]) "all" banner_host banner_port
          banner_record ∧
  ∃ d, banner_record !! "script_output" = Some (VDict d) ∧
       d !! "banner" = Some "two".
Proof.
  assert (He : emitted ascii_upper (run [banner_host]) "all" banner_host
                       banner_port banner_record)
    by show_emitted "10.0.0.7" (elem "ports" [] [banner_port]).
  split; [exact He|].
  destruct (proj2 (script_output_content ascii_upper _ _ _ _ _ He)
                  (VDict (list_to_map [("banner", "two")])) eq_refl)
    as (d & Hd & Hk).
  exists d. split; [rewrite <- Hd; evaluate|]. rewrite Hk. evaluate.
Defined.

(** C5, as stated, fails on a port whose two script children share an id:
    the id maps to the output of the second one, not to that of the first. *)
Lemma banner_not_as_claimed :
  emitted ascii_upper (run [banner_host]) "all" banner_host banner_port
          banner_record ∧
  ¬ script_output_as_claimed banner_port banner_record.
Proof.
  split; [show_emitted "10.0.0.7" (elem "ports" [] [banner_port])|].
  intros [_ Hval].
  destruct (Hval (VDict (list_to_map [("banner", "two")])) eq_refl)
    as (d & [= <-] & Hown & _).
  set (first := elem "script" [("id", "banner"); ("output", "one")] []).
  assert (Hin : first ∈ findall "script" banner_port) by evaluate.
  assert (Hid : truthy (get first "id") = true) by evaluate.
  pose proof (Hown first Hin Hid) as Hbad.
  vm_compute in Hbad. discriminate Hbad.
Qed.

Lemma web1_http_fields :
  emitted ascii_upper (run [web1]) "all" web1 web1_http web1_http_record ∧
  web1_http_record !! "fqdn" = Some (VStr "web1") ∧
  web1_http_record !! "port" = Some (VStr "TCP/80") ∧
  web1_http_record !! "port_status" = Some (VStr "open") ∧
  web1_http_record !! "service" = Some (VStr "http").
Proof.
  assert (He : emitted ascii_upper (run [web1]) "all" web1 web1_http
                       web1_http_record)
    by show_emitted "10.0.0.5" (elem "ports" [] [web1_http; web1_telnet]).
  split; [exact He|].
  destruct (record_fields ascii_upper _ _ _ _ _ He)
    as (Hfqdn & _ & Hport & Hstatus & Hservice).
  split; [exact Hfqdn|]. split; [exact Hport|]. split; [exact Hstatus|].
  exact Hservice.
Defined.

Lemma disk_runs :
  parse_nmap_xml ascii_upper toy_parser toy_open_error "bad.xml" "all" disk
  = (Exited 1,
     {| files := files disk;
        stderr := ["Error parsing XML file: syntax error: line 1, column 0"] |}) ∧
  parse_nmap_xml ascii_upper toy_parser toy_open_error "scan.xml" "all" disk
  = (Returned [], disk) ∧
  length (host_step ascii_upper "all" [] web1) = 2 ∧
  emitted ascii_upper (run [bare_host]) "all" bare_host bare_port bare_record ∧
  bare_record !! "fqdn" = Some (VStr "") ∧
  bare_record !! "port_status" = Some (VStr "") ∧
  bare_record !! "service" = Some (VStr "") ∧
  bare_record !! "port" = Some (VStr "/") ∧
  bare_record !! "detailed_service_info" = None ∧
  (list_to_map [("banner", "")] : gmap string string) !! "banner" = Some "".
Proof.
  destruct (errors_and_defaults ascii_upper toy_parser toy_open_error
              "bad.xml" "all" disk) as (Hbad & _).
  destruct (errors_and_defaults ascii_upper toy_parser toy_open_error
              "scan.xml" "all" disk)
    as (_ & Hgood & _ & Hcount & _ & _ & Hdefaults).
  assert (He : emitted ascii_upper (run [bare_host]) "all" bare_host bare_port
                       bare_record)
    by show_emitted "10.0.0.8" (elem "ports" [] [bare_port]).
  destruct (Hdefaults _ _ _ _ He)
    as (Hfqdn & Hstatus & Hservice & Hproto & _ & Hdetails & _ & _ & Hscripts).
  split; [exact (Hbad _ eq_refl)|]. split; [exact (Hgood _ eq_refl)|].
  split.
  { apply (Hcount [] web1 "10.0.0.5" (elem "ports" [] [web1_http; web1_telnet]));
      evaluate. }
  split; [exact He|].
  split; [apply Hfqdn; evaluate|]. split; [apply Hstatus; evaluate|].
  split; [apply Hservice; evaluate|]. split; [apply Hproto; evaluate|].
  split; [apply Hdetails; evaluate|].
  apply (proj2 (Hscripts (list_to_map [("banner", "")]) eq_refl) "banner"
           (elem "script" [("id", "banner")] [])); evaluate.
Defined.

Lemma disk_same_answer :
  parse_nmap_xml ascii_upper toy_parser toy_open_error "scan.xml" "open"
    {| files := <["other.xml" := "<x/>"]> (files disk); stderr := ["earlier"] |}
  = (Returned [],
     {| files := <["other.xml" := "<x/>"]> (files disk); stderr := ["earlier"] |}) ∧
  fst (parse_nmap_xml ascii_upper toy_parser toy_open_error "scan.xml" "open"
         {| files := <["other.xml" := "<x/>"]> (files disk); stderr := ["earlier"] |})
  = fst (parse_nmap_xml ascii_upper toy_parser toy_open_error "scan.xml" "open" disk).
Proof.
  destruct (pure_and_deterministic ascii_upper toy_parser toy_open_error
              "scan.xml" "open"
              {| files := <["other.xml" := "<x/>"]> (files disk);
                 stderr := ["earlier"] |}
              disk) as (Hsame & _ & Hpure); [evaluate|].
  split; [exact (Hpure _ eq_refl)|exact Hsame].
Defined.

(** *** The scenarios of the specification *)

Example scenario_web1 :
  transform ascii_upper (run [web1]) "open" = [web1_http_record].
Proof. evaluate. Qed.

Example scenario_ipv6_only :
  transform ascii_upper (run [v6_host]) "all" = [].
Proof. evaluate. Qed.

Example scenario_closed :
  transform ascii_upper (run [web1]) "closed" = [web1_telnet_record].
Proof. evaluate. Qed.

Example scenario_duplicate_hosts :
  transform ascii_upper (run [web1; web1]) "all"
  = [web1_http_record; web1_telnet_record; web1_http_record; web1_telnet_record].
Proof. evaluate. Qed.

(** ** Further properties of the transformation *)

Section Selection.

Variable str_upper : string → string.

Lemma port_record_by_status f hostname ip port :
  port_record str_upper f hostname ip port =
  if decide (f = "all" ∨ port_state_of port = f)
  then port_record str_upper "all" hostname ip port
  else None.
Proof.
  unfold port_record. cbv zeta.
  rewrite (bool_decide_eq_false_2 ("all" ≠ "all")) by auto. cbn [andb].
  destruct (decide (f = "all")) as [->|Hf].
  - rewrite decide_True by auto.
    by rewrite (bool_decide_eq_false_2 ("all" ≠ "all")) by auto.
  - rewrite (bool_decide_eq_true_2 (f ≠ "all")) by done. cbn [andb].
    destruct (decide (port_state_of port = f)) as [Hs|Hs].
    + rewrite decide_True by auto. by rewrite bool_decide_eq_false_2 by auto.
    + rewrite decide_False by (by intros [?|?]).
      by rewrite bool_decide_eq_true_2.
Qed.

Lemma omap_port_record_with_status f hostname ip ports :
  f ≠ "all" →
  omap (port_record str_upper f hostname ip) ports
  = with_status f (omap (port_record str_upper "all" hostname ip) ports).
Proof.
  intros Hf. unfold with_status.
  induction ports as [|port ports IH]; [done|].
  cbn [omap list_omap]. rewrite port_record_by_status.
  destruct (port_record_all str_upper hostname ip port) as [r Hr].
  rewrite Hr.
  destruct (port_record_lookup _ _ _ _ _ _ Hr) as (_ & _ & _ & Hst & _).
  rewrite filter_cons, Hst.
  destruct (decide (port_state_of port = f)) as [Hs|Hs].
  - rewrite decide_True by auto. rewrite decide_True by by rewrite Hs.
    by rewrite <- IH.
  - rewrite decide_False by (by intros [?|?]).
    rewrite decide_False by (by intros [= ?]). apply IH.
Qed.

Lemma host_records_with_status f host :
  f ≠ "all" →
  host_records str_upper f host
  = with_status f (host_records str_upper "all" host).
Proof.
  intros Hf. rewrite !host_records_cases.
  destruct (ip_address_of host) as [ip|]; [|done].
  destruct (truthy (Some ip)); [|done].
  destruct (find "ports" host) as [ports|]; [|done].
  by apply omap_port_record_with_status.
Qed.

(** X1.  A run with a status filter other than "all" gives the records of
    the run with "all" whose port_status is the filter, in the same order. *)
Theorem filter_after_all root f :
  f ≠ "all" →
  transform str_upper root f = with_status f (transform str_upper root "all").
Proof.
  intros Hf. rewrite !transform_flat_map.
  induction (findall_descendants "host" root) as [|host hosts IH]; [done|].
  cbn [flat_map]. unfold with_status in *.
  rewrite filter_app, <- IH. f_equal. by apply host_records_with_status.
Qed.

End Selection.

Lemma web1_closed_after_all :
  "closed" ≠ "all" ∧
  transform ascii_upper (run [web1; v6_host; web1]) "closed"
  = with_status "closed" (transform ascii_upper (run [web1; v6_host; web1]) "all").
Proof.
  assert (Hf : "closed" ≠ "all") by discriminate.
  split; [exact Hf|].
  exact (filter_after_all ascii_upper (run [web1; v6_host; web1]) "closed" Hf).
Defined.

Lemma elem_of_required_keys k :
  k ∈ required_keys ↔
  k = "fqdn" ∨ k = "ip" ∨ k = "port" ∨ k = "port_status" ∨ k = "service".
Proof. unfold required_keys. rewrite !elem_of_cons, elem_of_nil. tauto. Qed.

Lemma combined_of_nonempty product version :
  truthy product || truthy version = true → combined_of product version ≠ "".
Proof.
  unfold combined_of, join.
  destruct product as [[|c p]|], version as [[|c' v]|]; cbn; try done.
Qed.

Lemma service_details_values service k v :
  service_details_of service !! k = Some v → v ≠ "".
Proof.
  rewrite service_details_lookup.
  destruct (decide (k = "combined_info")) as [_|_].
  - destruct (truthy (get service "product") || truthy (get service "version"))
      eqn:Hpv; [|done].
    intros [= <-]. by apply combined_of_nonempty.
  - destruct (decide (k ∈ detail_attrs)); [|done].
    destruct (truthy (get service k)) eqn:Ht; [|done].
    intros Hv. rewrite Hv in Ht. by apply truthy_Some in Ht.
Qed.

Section Records.

Variable str_upper : string → string.

Lemma port_record_lookup_other f hostname ip port r k :
  port_record str_upper f hostname ip port = Some r →
  k ∉ required_keys → k ≠ "detailed_service_info" → k ≠ "script_output" →
  r !! k = None.
Proof.
  unfold port_record. cbv zeta.
  destruct (_ && _); [done|]. intros [= <-] Hk Hd Hs.
  rewrite elem_of_required_keys in Hk.
  assert (∀ v (m : gmap string value),
            <["detailed_service_info" := v]> m !! k = m !! k) as Hd'
    by (intros; by apply lookup_insert_ne).
  assert (∀ v (m : gmap string value),
            <["script_output" := v]> m !! k = m !! k) as Hs'
    by (intros; by apply lookup_insert_ne).
  assert ((<["service" := VStr (match find "service" port with
                                | Some s => get_or s "name" ""
                                | None => ""
                                end)]>
           (<["port_status" := VStr (port_state_of port)]>
           (<["port" := VStr (str_upper (get_or port "protocol" "") ++ "/"
                              ++ get_or port "portid" "")]>
           (<["ip" := VStr ip]>
           (<["fqdn" := VStr hostname]> (∅ : gmap string value)))))) !! k = None)
    as Hbase.
  { rewrite !lookup_insert_ne by (intros <-; tauto). apply lookup_empty. }
  destruct (findall "script" port) as [|script scripts];
    repeat case_bool_decide; rewrite ?Hs', ?Hd'; exact Hbase.
Qed.

(** X2.  An emitted record has the five keys fqdn, ip, port, port_status
    and service with string values, and no other key except
    detailed_service_info and script_output, whose values, when they are
    there, are dictionaries that are not empty. *)
Theorem record_keys root f host port r :
  emitted str_upper root f host port r →
  (∀ k, k ∈ required_keys → ∃ s, r !! k = Some (VStr s)) ∧
  (∀ k, is_Some (r !! k) →
     k ∈ required_keys ∨ k = "detailed_service_info" ∨ k = "script_output") ∧
  (∀ k v, r !! k = Some v → k ∉ required_keys → ∃ d, v = VDict d ∧ d ≠ ∅).
Proof.
  intros (_ & ip & ports & _ & _ & _ & _ & Hr).
  destruct (port_record_lookup _ _ _ _ _ _ Hr)
    as (Hfqdn & Hip & Hport & Hstatus & Hservice & Hd & Hs).
  assert (Hopt : ∀ k v, r !! k = Some v → k ∉ required_keys →
                   (k = "detailed_service_info" ∨ k = "script_output")
                   ∧ ∃ d, v = VDict d ∧ d ≠ ∅).
  { intros k v Hkv Hk.
    destruct (decide (k = "detailed_service_info")) as [->|Hnd].
    - split; [by left|]. rewrite Hd in Hkv.
      destruct (find "service" port) as [service|]; [|done].
      case_bool_decide; [|done]. injection Hkv as <-. eauto.
    - destruct (decide (k = "script_output")) as [->|Hns].
      + split; [by right|]. rewrite Hs in Hkv.
        case_bool_decide; [|done]. injection Hkv as <-. eauto.
      + by rewrite (port_record_lookup_other _ _ _ _ _ _ Hr Hk Hnd Hns) in Hkv. }
  split; [|split].
  - intros k [->|[->|[->|[->| ->]]]]%elem_of_required_keys; eauto.
  - intros k [v Hkv].
    destruct (decide (k ∈ required_keys)) as [?|Hk]; [by left|].
    right. by destruct (Hopt k v Hkv Hk).
  - intros k v Hkv Hk. by destruct (Hopt k v Hkv Hk).
Qed.

(** X3.  No value of a detailed_service_info dictionary is the empty
    string. *)
Theorem detail_values_nonempty root f host port r d :
  emitted str_upper root f host port r →
  r !! "detailed_service_info" = Some (VDict d) →
  ∀ k v, d !! k = Some v → v ≠ "".
Proof.
  intros (_ & ip & ports & _ & _ & _ & _ & Hr) Hrd k v Hkv.
  destruct (port_record_lookup _ _ _ _ _ _ Hr) as (_ & _ & _ & _ & _ & Hd & _).
  rewrite Hd in Hrd. destruct (find "service" port) as [service|]; [|done].
  case_bool_decide; [|done]. injection Hrd as <-.
  by eapply service_details_values.
Qed.

End Records.

Lemma script_output_own scripts s k :
  (∀ s', s' ∈ scripts → get s' "id" = Some k →
         default "" (get s "output") = default "" (get s' "output")) →
  s ∈ scripts → get s "id" = Some k → k ≠ "" →
  foldl add_script ∅ scripts !! k = Some (default "" (get s "output")).
Proof.
  intros Hagree Hin Hid Hk.
  rewrite foldl_add_script_lookup, decide_False by done.
  destruct (last (filter (λ s, get s "id" = Some k) scripts)) as [s'|] eqn:Hlast.
  - apply last_Some_elem_of, list_elem_of_filter in Hlast as [Hid' Hin'].
    cbn. f_equal. symmetry. by apply Hagree.
  - apply last_None in Hlast.
    assert (Hs : s ∈ filter (λ s, get s "id" = Some k) scripts)
      by by apply list_elem_of_filter.
    rewrite Hlast in Hs. by apply elem_of_nil in Hs.
Qed.

Lemma script_output_key scripts k :
  is_Some (foldl add_script ∅ scripts !! k) →
  k ≠ "" ∧ ∃ s, s ∈ scripts ∧ get s "id" = Some k.
Proof.
  rewrite foldl_add_script_lookup.
  destruct (decide (k = "")) as [|Hk]; [by intros [? ?]|].
  destruct (last _) as [s|] eqn:Hlast; [|by intros [? ?]].
  apply last_Some_elem_of, list_elem_of_filter in Hlast as [Hid Hin].
  intros _. split; [done|]. by exists s.
Qed.

Section Scripts.

Variable str_upper : string → string.

(** X4.  For an emitted record, every script child with a non-empty id
    finds its own output under its id in script_output exactly when the
    script children of the port that share a non-empty id have the same
    output. *)
Theorem own_output_iff_agree root f host port r :
  emitted str_upper root f host port r →
  script_output_as_claimed port r ↔ scripts_agree port.
Proof.
  intros (_ & ip & ports & _ & _ & _ & _ & Hr).
  destruct (port_record_lookup _ _ _ _ _ _ Hr) as (_ & _ & _ & _ & _ & _ & Hs).
  split.
  - intros [Hpresent Hvalue] s1 s2 Hin1 Hin2 Ht1 Hid.
    assert (Ht2 : truthy (get s2 "id") = true) by by rewrite <- Hid.
    destruct (proj2 Hpresent) as [v Hv]; [by exists s1|].
    destruct (Hvalue v Hv) as (d & _ & Hown & _).
    pose proof (Hown s1 Hin1 Ht1) as H1.
    pose proof (Hown s2 Hin2 Ht2) as H2.
    rewrite Hid, H2 in H1. by injection H1.
  - intros Hagree. unfold script_output_as_claimed. rewrite Hs.
    case_bool_decide as Hne.
    + split; [split; [by intros _; apply script_output_nonempty|by eauto]|].
      intros v [= <-]. eexists. split; [done|]. split.
      * intros s Hin Ht. destruct (truthy_is_Some _ Ht) as (k & Hid & Hk).
        rewrite Hid. cbn [default].
        apply script_output_own; [|done..].
        intros s' Hin' Hid'. apply Hagree; [done..|]. by rewrite Hid, Hid'.
      * apply script_output_key.
    + split; [|done]. split; [by intros [? ?]|].
      intros Hex. by apply script_output_nonempty in Hex.
Qed.

(** X5.  The ip of an emitted record is the non-empty addr of the first
    address child of the host that is tagged ipv4, whatever other
    addresses the host has. *)
Theorem ip_of_first_ipv4_address root f host port r :
  emitted str_upper root f host port r →
  ∃ a ip, head (ipv4_addresses host) = Some a ∧ get a "addr" = Some ip ∧
          ip ≠ "" ∧ r !! "ip" = Some (VStr ip).
Proof.
  intros (_ & ip & ports & Hip & Hne & _ & _ & Hr).
  destruct (port_record_lookup _ _ _ _ _ _ Hr) as (_ & Hr_ip & _).
  rewrite ip_address_of_head in Hip.
  destruct (head (ipv4_addresses host)) as [a|]; [|done].
  by exists a, ip.
Qed.

End Scripts.

(** ** What the program does not look at *)

Lemma findall_kept_children (tags : list string) tg t a t' a' cs :
  tg ∈ tags →
  findall tg (mkElement t' a' (filter (λ c, tag c ∈ tags) cs))
  = findall tg (mkElement t a cs).
Proof.
  intros Htg. unfold findall. cbn [children].
  induction cs as [|c cs IH]; [done|].
  rewrite (filter_cons (λ c, tag c ∈ tags)), (filter_cons (λ c, tag c = tg) c cs).
  destruct (decide (tag c ∈ tags)) as [Hc|Hc].
  - rewrite filter_cons. by rewrite IH.
  - rewrite IH. rewrite decide_False; [done|]. intros Heq. by rewrite Heq in Hc.
Qed.

Lemma iter_cases tg c :
  iter tg c
  = ((if decide (tag c = tg) then [c] else []) ++ findall_descendants tg c)%list.
Proof. by destruct c. Qed.

Section Unread.

Variable str_upper : string → string.

(** X6.  A host adds the same records when its tag and attributes are
    replaced and every child other than its address, hostnames and ports
    children is removed. *)
Theorem host_reads_three_children f results t a t' a' cs :
  host_step str_upper f results (mkElement t a cs)
  = host_step str_upper f results
      (mkElement t' a' (filter (λ c, tag c ∈ host_children_read) cs)).
Proof.
  unfold host_step, ip_address_of, hostname_of, find.
  rewrite !(findall_kept_children host_children_read _ t a t' a' cs);
    [done|unfold host_children_read; repeat constructor..].
Qed.

(** X7.  A port gives the same record, or is skipped alike, when its tag
    is replaced, its attributes are replaced by others with the same portid
    and protocol, and every child other than its state, service and script
    children is removed. *)
Theorem port_reads_two_attributes f hostname ip t a t' a' cs :
  a' !! "portid" = a !! "portid" →
  a' !! "protocol" = a !! "protocol" →
  port_record str_upper f hostname ip (mkElement t a cs)
  = port_record str_upper f hostname ip
      (mkElement t' a' (filter (λ c, tag c ∈ port_children_read) cs)).
Proof.
  intros Hid Hproto.
  unfold port_record, port_state_of, find, get_or, get. cbn [attrib].
  rewrite Hid, Hproto.
  rewrite !(findall_kept_children port_children_read _ t a t' a' cs);
    [done|unfold port_children_read; repeat constructor..].
Qed.

(** X8.  The records of a document are, child by child of the root in
    order, those of the child itself when its tag is host, followed by
    those of the document rooted at the child: hosts are found at any
    depth, the records of a host come before those of the hosts inside it,
    and the root itself is never taken as a host. *)
Theorem transform_by_children f t a cs :
  transform str_upper (mkElement t a cs) f
  = flat_map (λ c, ((if decide (tag c = "host")
                     then host_records str_upper f c else [])
                    ++ transform str_upper c f)%list) cs.
Proof.
  rewrite transform_flat_map. unfold findall_descendants. cbn [children].
  induction cs as [|c cs IH]; [done|].
  cbn [flat_map]. rewrite flat_map_app, IH. f_equal.
  rewrite iter_cases, flat_map_app, transform_flat_map. f_equal.
  destruct (decide (tag c = "host")); [|done].
  cbn [flat_map]. by rewrite app_nil_r.
Qed.

End Unread.

Lemma web1_http_renamed :
  port_record ascii_upper "open" "web1" "10.0.0.5" web1_http
  = port_record ascii_upper "open" "web1" "10.0.0.5"
      (elem "anything" [("portid", "80"); ("protocol", "tcp"); ("extra", "1")]
            (filter (λ c, tag c ∈ port_children_read) (children web1_http))).
Proof.
  apply (port_reads_two_attributes ascii_upper "open" "web1" "10.0.0.5"
           "port" (attrib web1_http) "anything"
           (list_to_map [("portid", "80"); ("protocol", "tcp"); ("extra", "1")])
           (children web1_http)); evaluate.
Defined.

(** ** Properties of the command line program *)

Section MainProperties.

Variable str_upper : string → string.
Variable XMLParser : string → Element + string.
Variable open_error : string → string.
Variable json_dumps : list (gmap string value) → string.
Variable try_write : World → string → string → write_result.
Variable same_file : string → string → bool.

Lemma store_lookup_other path text fs p :
  p ≠ path → same_file path p = false →
  store same_file path text fs !! p = fs !! p.
Proof.
  intros Hp Hsame. unfold store.
  rewrite lookup_insert_ne, map_lookup_imap by done.
  destruct (fs !! p); [|done]. cbn. by rewrite Hsame.
Qed.

(** X9.  [main] changes no file other than the output file: a path that
    is not the output argument and does not name the same file reads as
    before.  No file at all changes when the input cannot be read or
    parsed, when no output path is given, or when it is the empty string. *)
Theorem main_changes_only_output args c :
  (∀ path,
     (∀ out, output args = Some out → out ≠ path ∧ same_file out path = false) →
     files (world (snd
         (main str_upper XMLParser open_error json_dumps try_write same_file args c)))
       !! path
     = files (world c) !! path) ∧
  (∀ e, ET_parse XMLParser open_error (world c) (input args) = inr e →
     files (world (snd
         (main str_upper XMLParser open_error json_dumps try_write same_file args c)))
     = files (world c)) ∧
  (output args = None ∨ output args = Some "" →
     files (world (snd
         (main str_upper XMLParser open_error json_dumps try_write same_file args c)))
     = files (world c)).
Proof.
  unfold main, parse_nmap_xml.
  destruct (ET_parse XMLParser open_error (world c) (input args)) as [root|e'].
  - split; [|split; [done|]].
    + intros path Hpath. destruct (output args) as [out|]; [|done].
      destruct (Hpath out eq_refl) as [Hne Hsame].
      destruct (truthy (Some out)); [|done].
      destruct (try_write _ _ _); cbn; [|done|];
        by apply store_lookup_other.
    + by intros [->| ->].
  - by destruct (output args).
Qed.


(** X11.  When [main] returns after being given a non-empty output path,
    that file holds the very text that the same run without an output path
    adds to the standard output. *)
Theorem main_file_is_printed_text args c path :
  output args = Some path → path ≠ "" →
  fst
      (main str_upper XMLParser open_error json_dumps try_write same_file args c)
        = Returned () →
  ∃ text,
    files (world (snd
        (main str_upper XMLParser open_error json_dumps try_write same_file args c)))
          !! path = Some text ∧
    stdout (snd (main str_upper XMLParser open_error json_dumps try_write same_file
                   {| input := input args; output := None; status := status args |}
                   c))
    = (stdout c ++ [text])%list.
Proof.
  intros Hout Hpath. unfold main, parse_nmap_xml. cbn [input output status].
  rewrite Hout.
  destruct (ET_parse XMLParser open_error (world c) (input args)) as [root|e];
    [|done].
  apply truthy_Some in Hpath. rewrite Hpath.
  destruct (try_write _ _ _); [|done..].
  intros _. eexists. split; [apply lookup_insert_eq|done].
Qed.

End MainProperties.

Lemma main_keeps_scan_file :
  files (world (snd (main ascii_upper toy_parser toy_open_error toy_dumps
                          toy_write toy_same_file
                          {| input := "scan.xml"; output := Some "out.json";
                             status := "all" |} terminal))) !! "scan.xml"
  = files disk !! "scan.xml" ∧
  files (world (snd (main ascii_upper toy_parser toy_open_error toy_dumps
                          toy_write toy_same_file
                          {| input := "bad.xml"; output := Some "out.json";
                             status := "all" |} terminal)))
  = files disk.
Proof.
  split.
  - apply (proj1 (main_changes_only_output ascii_upper toy_parser toy_open_error
                    toy_dumps toy_write toy_same_file
                    {| input := "scan.xml"; output := Some "out.json";
                       status := "all" |} terminal)).
    intros out Hout. injection Hout as <-. split; evaluate.
  - apply (proj1 (proj2 (main_changes_only_output ascii_upper toy_parser
                           toy_open_error toy_dumps toy_write toy_same_file
                           {| input := "bad.xml"; output := Some "out.json";
                              status := "all" |} terminal))
             "syntax error: line 1, column 0").
    evaluate.
Defined.

Lemma main_writes_out_json :
  ∃ text,
    files (world (snd (main ascii_upper toy_parser toy_open_error toy_dumps
                            toy_write toy_same_file
                            {| input := "scan.xml"; output := Some "out.json";
                               status := "all" |} terminal))) !! "out.json"
    = Some text ∧
    stdout (snd (main ascii_upper toy_parser toy_open_error toy_dumps toy_write
                      toy_same_file
                      {| input := "scan.xml"; output := None; status := "all" |}
                      terminal))
    = [text].
Proof.
  apply (main_file_is_printed_text ascii_upper toy_parser toy_open_error
           toy_dumps toy_write toy_same_file
           {| input := "scan.xml"; output := Some "out.json"; status := "all" |}
           terminal "out.json"); evaluate.
Defined.

(** An output path that names the input file another way overwrites it. *)
Example main_overwrites_aliased_input :
  files (world (snd (main ascii_upper toy_parser toy_open_error toy_dumps
                          toy_write toy_same_file
                          {| input := "scan.xml"; output := Some "./scan.xml";
                             status := "all" |} terminal))) !! "scan.xml"
  = Some "[]".
Proof. evaluate. Qed.

Lemma web1_verbose_keys :
  emitted ascii_upper (run [web1_verbose]) "all" web1_verbose web1_http
          web1_http_record ∧
  (∃ s, web1_http_record !! "port" = Some (VStr s)) ∧
  ∃ d, VDict (list_to_map [("product", "nginx"); ("version", "1.18");
                           ("combined_info", "nginx 1.18")]) = VDict d ∧ d ≠ ∅.
Proof.
  assert (He : emitted ascii_upper (run [web1_verbose]) "all" web1_verbose
                       web1_http web1_http_record)
    by show_emitted "10.0.0.5" (elem "ports" [] [web1_http; web1_telnet]).
  split; [exact He|].
  destruct (record_keys ascii_upper _ _ _ _ _ He) as (Hfive & _ & Hopt).
  split.
  - apply Hfive. evaluate.
  - apply (Hopt "detailed_service_info"); [evaluate|].
    intros Hin. apply elem_of_required_keys in Hin.
    by destruct Hin as [?|[?|[?|[?|?]]]].
Defined.

Lemma web1_verbose_detail_values :
  emitted ascii_upper (run [web1_verbose]) "all" web1_verbose web1_http
          web1_http_record ∧
  "nginx 1.18" ≠ "".
Proof.
  assert (He : emitted ascii_upper (run [web1_verbose]) "all" web1_verbose
                       web1_http web1_http_record)
    by show_emitted "10.0.0.5" (elem "ports" [] [web1_http; web1_telnet]).
  split; [exact He|].
  apply (detail_values_nonempty ascii_upper _ _ _ _ _
           (list_to_map [("product", "nginx"); ("version", "1.18");
                         ("combined_info", "nginx 1.18")])
           He eq_refl "combined_info").
  evaluate.
Defined.

Lemma two_scripts_own_outputs :
  emitted ascii_upper (run [two_scripts_host]) "all" two_scripts_host
          two_scripts_port two_scripts_record ∧
  (script_output_as_claimed two_scripts_port two_scripts_record
   ↔ scripts_agree two_scripts_port).
Proof.
  assert (He : emitted ascii_upper (run [two_scripts_host]) "all"
                       two_scripts_host two_scripts_port two_scripts_record)
    by show_emitted "10.0.0.7" (elem "ports" [] [two_scripts_port]).
  split; [exact He|].
  exact (own_output_iff_agree ascii_upper _ _ _ _ _ He).
Defined.

Lemma web1_verbose_ip :
  emitted ascii_upper (run [web1_verbose]) "all" web1_verbose web1_http
          web1_http_record ∧
  ∃ a ip, head (ipv4_addresses web1_verbose) = Some a ∧
          get a "addr" = Some ip ∧ ip ≠ "" ∧
          web1_http_record !! "ip" = Some (VStr ip).
Proof.
  assert (He : emitted ascii_upper (run [web1_verbose]) "all" web1_verbose
                       web1_http web1_http_record)
    by show_emitted "10.0.0.5" (elem "ports" [] [web1_http; web1_telnet]).
  split; [exact He|].
  exact (ip_of_first_ipv4_address ascii_upper _ _ _ _ _ He).
Defined.
